(** * visualize.py: the class-count table and its stacked bar chart

    A shallow embedding of [src/visualize.py].  The script is a straight
    line of library calls, so the embedding has three layers:

    - the Python values the script writes down (the [data] dict literal);
    - the pandas and matplotlib calls the script makes, each as a function
      on explicit values ([pd_DataFrame], [set_index], [plot], [set_title],
      [set_xlabel], [set_ylabel], [legend]), following the behaviour the
      two libraries document for the arguments the script passes;
    - the script itself, as a list of statements ([stmt], [exec], [run])
      over a store holding the variables [data], [df] and [ax] and
      pyplot's current figure.

    Column entries are Python [str] or [int] objects, the ints within
    numpy's int64 as counts are; the frame keeps the column order of the
    dict, which is its insertion order. *)

From Stdlib Require Import ZArith Ascii String.
From stdpp Require Import base option list sorting strings pretty.

Local Open Scope string_scope.

(** ** Python values and exceptions *)

Inductive pyval : Type :=
| PStr (s : string)
| PInt (z : Z).

#[global] Instance pyval_eq_dec : EqDecision pyval.
Proof. solve_decision. Defined.

Inductive exn : Type :=
| ValueError   (* pandas: "All arrays must be of the same length" *)
| KeyError     (* pandas: "None of [...] are in the columns" *)
| TypeError    (* pandas: "no numeric data to plot" *)
| IndexError   (* numpy: index 0 is out of bounds for axis 0 with size 0 *)
| NameError.   (* a variable read before it is assigned *)

#[global] Instance exn_eq_dec : EqDecision exn.
Proof. solve_decision. Defined.

(** A call either returns or raises. *)
Inductive result (A : Type) : Type :=
| Ok (a : A)
| Raise (e : exn).
Arguments Ok {A} a.
Arguments Raise {A} e.

#[global] Instance result_ret : MRet result := fun _ a => Ok a.
#[global] Instance result_bind : MBind result := fun _ _ f m =>
  match m with
  | Ok a => f a
  | Raise e => Raise e
  end.
#[global] Instance result_fmap : FMap result := fun _ _ f m =>
  match m with
  | Ok a => Ok (f a)
  | Raise e => Raise e
  end.

(** ** The dict literal *)

(** A Python dict of lists, in insertion order. *)
Definition dict : Type := list (string * list pyval).

Fixpoint dict_get (key : string) (d : dict) : option (list pyval) :=
  match d with
  | [] => None
  | (k, v) :: d' => if decide (k = key) then Some v else dict_get key d'
  end.

Definition keys (d : dict) : list string := fst <$> d.

(** Lines 5-9. *)
Definition data : dict :=
  [ ("Class Name", [PStr "Glioma"; PStr "Meningioma"; PStr "No tumor"; PStr "Pituitary"]);
    ("Training",   [PInt 1100;     PInt 1144;         PInt 1241;       PInt 1370]);
    ("Testing",    [PInt 221;      PInt 195;          PInt 216;        PInt 225]) ].

(** ** pandas: the frame *)

Record DataFrame : Type := mkDataFrame {
  index : list pyval;                      (* row labels *)
  index_name : option string;              (* df.index.name *)
  columns : list (string * list pyval)     (* column label, column values *)
}.

#[global] Instance DataFrame_eq_dec : EqDecision DataFrame.
Proof. solve_decision. Defined.

(** [pd.RangeIndex(n)]: the labels 0 .. n-1. *)
Definition RangeIndex (n : nat) : list pyval :=
  (fun i => PInt (Z.of_nat i)) <$> seq 0 n.

(** [pd.DataFrame(data)] for a dict of lists.  The row index is taken from
    the set of the lists' lengths: more than one length raises, otherwise
    the index is the default range of that length (of length 0 for the
    empty dict).  Each list is copied into an array of the frame, so the
    frame shares no storage with the dict. *)
Definition pd_DataFrame (d : dict) : result DataFrame :=
  let lengths := remove_dups ((fun kv => length kv.2) <$> d) in
  if decide (1 < length lengths) then Raise ValueError
  else Ok {| index := RangeIndex (default 0 (head lengths));
             index_name := None;
             columns := d |}.

(** [df.set_index(key)] with the defaults [drop=True], [append=False],
    [verify_integrity=False]: the column named [key] becomes the index and
    is removed from the columns; a missing column raises.  Duplicate labels
    in the new index are accepted. *)
Definition set_index (key : string) (df : DataFrame) : result DataFrame :=
  match dict_get key (columns df) with
  | None => Raise KeyError
  | Some col =>
      Ok {| index := col;
            index_name := Some key;
            columns := filter (fun kv => kv.1 <> key) (columns df) |}
  end.

(** Lines 12 and 15 together: the table keyed by class name. *)
Definition build_table (d : dict) : result DataFrame :=
  df ← pd_DataFrame d; set_index "Class Name" df.

(** *** Reading a frame *)

Definition column_names (df : DataFrame) : list string := fst <$> columns df.

(** [df[name]]: the values of one column. *)
Definition getitem (name : string) (df : DataFrame) : option (list pyval) :=
  dict_get name (columns df).

(** [df.iloc[i]]: the values of row [i], one per column, in column order. *)
Definition iloc (df : DataFrame) (i : nat) : list pyval :=
  omap (fun kv => kv.2 !! i) (columns df).

(** [df.loc[label]] for a label that occurs in the index: the first row
    carrying it. *)
Definition loc (df : DataFrame) (label : pyval) : option (list pyval) :=
  iloc df <$> (fst <$> list_find (fun l => l = label) (index df)).

(** [df.itertuples()]: every row as its label and its values, top down. *)
Definition itertuples (df : DataFrame) : list (pyval * list pyval) :=
  imap (fun i label => (label, iloc df i)) (index df).

(** [len(df)]: the number of rows. *)
Definition len (df : DataFrame) : nat := length (index df).

(** [df._get_label_or_level_values(key)]: the values stored under [key],
    whether [key] names the index or a column. *)
Definition get_label_or_level_values (key : string) (df : DataFrame)
  : option (list pyval) :=
  if decide (index_name df = Some key) then Some (index df)
  else getitem key df.

(** ** matplotlib: the axes *)

(** One bar segment: the tick it is centred on, where it starts and how far
    it extends upwards. *)
Record Rectangle : Type := mkRectangle {
  rect_x : nat;
  rect_bottom : Z;
  rect_height : Z
}.

Definition rect_top (r : Rectangle) : Z := (rect_bottom r + rect_height r)%Z.

(** The segments drawn for one series, under the series' label. *)
Record BarContainer : Type := mkBarContainer {
  bc_label : string;
  bc_patches : list Rectangle
}.

Record Legend : Type := mkLegend {
  legend_title : string;
  legend_entries : list (string * BarContainer)   (* text, handle *)
}.

Record Axes : Type := mkAxes {
  title : string;
  xlabel : string;
  ylabel : string;
  xticks : list nat;
  xticklabels : list string;
  containers : list BarContainer;
  legend_ : option Legend
}.

Record Figure : Type := mkFigure {
  figsize : option (Z * Z);   (* inches; None is the rcParams default *)
  tight : bool;
  shown : bool
}.

#[global] Instance Rectangle_eq_dec : EqDecision Rectangle.
Proof. solve_decision. Defined.
#[global] Instance BarContainer_eq_dec : EqDecision BarContainer.
Proof. solve_decision. Defined.
#[global] Instance Legend_eq_dec : EqDecision Legend.
Proof. solve_decision. Defined.
#[global] Instance Axes_eq_dec : EqDecision Axes.
Proof. solve_decision. Defined.
#[global] Instance Figure_eq_dec : EqDecision Figure.
Proof. solve_decision. Defined.

(** A fresh axes: no text, no ticks, nothing drawn. *)
Definition subplots : Axes :=
  {| title := ""; xlabel := ""; ylabel := ""; xticks := []; xticklabels := [];
     containers := []; legend_ := None |}.

Definition set_title (s : string) (ax : Axes) : Axes :=
  {| title := s; xlabel := xlabel ax; ylabel := ylabel ax;
     xticks := xticks ax; xticklabels := xticklabels ax;
     containers := containers ax; legend_ := legend_ ax |}.

Definition set_xlabel (s : string) (ax : Axes) : Axes :=
  {| title := title ax; xlabel := s; ylabel := ylabel ax;
     xticks := xticks ax; xticklabels := xticklabels ax;
     containers := containers ax; legend_ := legend_ ax |}.

Definition set_ylabel (s : string) (ax : Axes) : Axes :=
  {| title := title ax; xlabel := xlabel ax; ylabel := s;
     xticks := xticks ax; xticklabels := xticklabels ax;
     containers := containers ax; legend_ := legend_ ax |}.

Definition set_xticks (ts : list nat) (labels : list string) (ax : Axes) : Axes :=
  {| title := title ax; xlabel := xlabel ax; ylabel := ylabel ax;
     xticks := ts; xticklabels := labels;
     containers := containers ax; legend_ := legend_ ax |}.

(** The label a container gets on an axes that already has [n]: its own,
    or the private [_containerN] when it has none. *)
Definition container_label (n : nat) (label : string) : string :=
  if decide (label = "") then "_container" +:+ pretty n else label.

(** [ax.add_container(bc)]. *)
Definition add_container (bc : BarContainer) (ax : Axes) : Axes :=
  {| title := title ax; xlabel := xlabel ax; ylabel := ylabel ax;
     xticks := xticks ax; xticklabels := xticklabels ax;
     containers :=
       (containers ax
          ++ [{| bc_label := container_label (length (containers ax)) (bc_label bc);
                 bc_patches := bc_patches bc |}])%list;
     legend_ := legend_ ax |}.

(** [ax.bar(x, height, bottom=bottom, label=label)]: one rectangle per
    position, all in one container carrying the label. *)
Fixpoint bar_patches (x : list nat) (height bottom : list Z) : list Rectangle :=
  match x, height, bottom with
  | xi :: x', h :: height', b :: bottom' =>
      {| rect_x := xi; rect_bottom := b; rect_height := h |}
        :: bar_patches x' height' bottom'
  | _, _, _ => []
  end.

Definition bar (x : list nat) (height bottom : list Z) (label : string)
    (ax : Axes) : Axes :=
  add_container {| bc_label := label; bc_patches := bar_patches x height bottom |} ax.

(** [ax.get_legend_handles_labels()]: the labelled artists, in drawing
    order; an empty label or one starting with an underscore is skipped. *)
Definition legend_label_ok (s : string) : bool :=
  match s with
  | "" => false
  | String c _ => negb (bool_decide (c = "_"%char))
  end.

Definition get_legend_handles_labels (ax : Axes) : list (string * BarContainer) :=
  (fun bc => (bc_label bc, bc)) <$>
    filter (fun bc => legend_label_ok (bc_label bc) = true) (containers ax).

(** [ax.legend(title=t)]: a new legend over the labelled artists replaces
    whatever legend the axes had. *)
Definition legend (t : string) (ax : Axes) : Axes :=
  {| title := title ax; xlabel := xlabel ax; ylabel := ylabel ax;
     xticks := xticks ax; xticklabels := xticklabels ax;
     containers := containers ax;
     legend_ := Some {| legend_title := t;
                        legend_entries := get_legend_handles_labels ax |} |}.

(** [ax.legend(handles, labels, title=t)]: a legend with exactly the given
    entries. *)
Definition legend_with (entries : list (string * BarContainer)) (t : string)
    (ax : Axes) : Axes :=
  {| title := title ax; xlabel := xlabel ax; ylabel := ylabel ax;
     xticks := xticks ax; xticklabels := xticklabels ax;
     containers := containers ax;
     legend_ := Some {| legend_title := t; legend_entries := entries |} |}.

(** ** pandas: [df.plot(kind='bar', stacked=True)] *)

(** numpy on the arrays of the plot, elementwise.  The running sums, like
    the heights and the bottoms of the rectangles, are float64 numbers in
    the libraries; they only ever hold the frame's ints and sums of them,
    which a float represents exactly up to 2^53 in size, so they are kept
    in [Z].  The properties that speak of values other than the script's
    own say so ([float_exact], [row_exact]). *)
Definition np_zeros (n : nat) : list Z := replicate n 0%Z.

Definition np_add (a b : list Z) : list Z := zip_with Z.add a b.

(** [y >= 0]. *)
Definition np_ge0 (y : list Z) : list bool := (fun v => bool_decide (0 <= v)%Z) <$> y.

Fixpoint np_where (mask : list bool) (a b : list Z) : list Z :=
  match mask, a, b with
  | m :: mask', x :: a', y :: b' => (if m then x else y) :: np_where mask' a' b'
  | _, _, _ => []
  end.

(** The dtype pandas infers for a list: int64 when every entry is an int
    that fits it, uint64 when every entry is an int that fits that, and
    object otherwise, so for a str among the entries, for an int of more
    than 64 bits, and for a negative int beside one above the int64 range.
    The first two are the numeric ones. *)
Definition in_int64 (v : pyval) : bool :=
  match v with
  | PInt z => bool_decide (- 2 ^ 63 <= z < 2 ^ 63)%Z
  | PStr _ => false
  end.

Definition in_uint64 (v : pyval) : bool :=
  match v with
  | PInt z => bool_decide (0 <= z < 2 ^ 64)%Z
  | PStr _ => false
  end.

Definition is_numeric (col : list pyval) : bool :=
  forallb in_int64 col || forallb in_uint64 col.

Definition to_numpy (col : list pyval) : list Z :=
  omap (fun v => match v with PInt z => Some z | PStr _ => None end) col.

(** [pprint_thing]: the text of a label. *)
Definition pprint_thing (v : pyval) : string :=
  match v with
  | PStr s => s
  | PInt z => pretty z
  end.

(** The numeric columns, which are the ones a bar plot draws. *)
Definition numeric_data (df : DataFrame) : list (string * list Z) :=
  (fun kv => (kv.1, to_numpy kv.2)) <$>
    filter (fun kv => is_numeric kv.2 = true) (columns df).

(** The bottom-of-bar offset [_start_base]: the default [bottom=0]. *)
Definition start_base : Z := 0.

(** State of the loop of [BarPlot._make_plot]: the heights stacked so far
    above and below the axis, and the axes drawn on. *)
Record stacking : Type := mkStacking {
  pos_prior : list Z;
  neg_prior : list Z;
  drawn : Axes
}.

(** One turn of that loop for a stacked plot: a value that is not negative
    goes on top of the positive stack, a negative one below the negative
    stack. *)
Definition make_plot_step (tick_pos : list nat) (st : stacking)
    (series : string * list Z) : stacking :=
  let '(label, y) := series in
  let mask := np_ge0 y in
  let start := (fun v => v + start_base)%Z <$> np_where mask (pos_prior st) (neg_prior st) in
  {| pos_prior := np_add (pos_prior st) (np_where mask y (np_zeros (length y)));
     neg_prior := np_add (neg_prior st) (np_where mask (np_zeros (length y)) y);
     drawn := bar tick_pos y start label (drawn st) |}.

Definition make_plot (tick_pos : list nat) (series : list (string * list Z))
    (ax : Axes) : stacking :=
  foldl (make_plot_step tick_pos) 
        {| pos_prior := np_zeros (length tick_pos);
           neg_prior := np_zeros (length tick_pos);
           drawn := ax |}
        series.

(** [df.plot(kind='bar', stacked=True)] on a fresh axes: the numeric columns
    are drawn one after the other, then a legend lists every drawn series
    under its column label, the ticks are labelled with the index and the
    x axis is named after the index. *)
Definition plot (df : DataFrame) : result Axes :=
  let series := numeric_data df in
  if decide (series = []) then Raise TypeError
  else if decide (len df = 0) then Raise IndexError
  else
    let tick_pos := seq 0 (len df) in
    let ax := drawn (make_plot tick_pos series subplots) in
    let ax := legend_with (zip (fst <$> series) (containers ax)) "" ax in
    let ax := set_xticks tick_pos (pprint_thing <$> index df) ax in
    Ok (match index_name df with
        | Some name => set_xlabel name ax
        | None => ax
        end).

(** Lines 18-26 as one operation: draw the table, then set the texts. *)
Definition render (table : DataFrame)
    (title_ x_label y_label legend_title_ : string) : result Axes :=
  ax ← plot table;
  mret (legend legend_title_
          (set_ylabel y_label (set_xlabel x_label (set_title title_ ax)))).

(** ** The script *)

(** The variables of the module and pyplot's current figure.  Each of
    [data], [df] and [ax] is the only name of its object, so a method that
    works in place is an update of that one variable. *)
Record store : Type := mkStore {
  v_data : option dict;
  v_df : option DataFrame;
  v_ax : option Axes;
  gcf : option Figure
}.

Definition empty_store : store :=
  {| v_data := None; v_df := None; v_ax := None; gcf := None |}.

Inductive stmt : Type :=
| AssignData (d : dict)              (* data = {...} *)
| NewDataFrame                       (* df = pd.DataFrame(data) *)
| SetIndexInplace (key : string)     (* df.set_index(key, inplace=True) *)
| PlotBarStacked (size : Z * Z)      (* ax = df.plot(kind='bar', stacked=True, figsize=size) *)
| SetTitle (s : string)              (* ax.set_title(s) *)
| SetXlabel (s : string)             (* ax.set_xlabel(s) *)
| SetYlabel (s : string)             (* ax.set_ylabel(s) *)
| LegendTitle (s : string)           (* ax.legend(title=s) *)
| TightLayout                        (* plt.tight_layout() *)
| ShowFigure.                        (* plt.show() *)

(** Reading a variable. *)
Definition load {A} (v : option A) : result A :=
  match v with
  | Some a => Ok a
  | None => Raise NameError
  end.

Definition with_ax (f : Axes -> Axes) (st : store) : result store :=
  ax ← load (v_ax st);
  mret {| v_data := v_data st; v_df := v_df st; v_ax := Some (f ax); gcf := gcf st |}.

(** pyplot works on the current figure and opens one when there is none. *)
Definition current_figure (st : store) : Figure :=
  default {| figsize := None; tight := false; shown := false |} (gcf st).

Definition exec (s : stmt) (st : store) : result store :=
  match s with
  | AssignData d =>
      mret {| v_data := Some d; v_df := v_df st; v_ax := v_ax st; gcf := gcf st |}
  | NewDataFrame =>
      d ← load (v_data st);
      df ← pd_DataFrame d;
      mret {| v_data := v_data st; v_df := Some df; v_ax := v_ax st; gcf := gcf st |}
  | SetIndexInplace key =>
      df ← load (v_df st);
      df' ← set_index key df;
      mret {| v_data := v_data st; v_df := Some df'; v_ax := v_ax st; gcf := gcf st |}
  | PlotBarStacked size =>
      df ← load (v_df st);
      ax ← plot df;
      mret {| v_data := v_data st; v_df := v_df st; v_ax := Some ax;
              gcf := Some {| figsize := Some size; tight := false; shown := false |} |}
  | SetTitle s => with_ax (set_title s) st
  | SetXlabel s => with_ax (set_xlabel s) st
  | SetYlabel s => with_ax (set_ylabel s) st
  | LegendTitle s => with_ax (legend s) st
  | TightLayout =>
      let fig := current_figure st in
      mret {| v_data := v_data st; v_df := v_df st; v_ax := v_ax st;
              gcf := Some {| figsize := figsize fig; tight := true; shown := shown fig |} |}
  | ShowFigure =>
      mret {| v_data := v_data st; v_df := v_df st; v_ax := v_ax st;
              gcf := (fun fig => {| figsize := figsize fig; tight := tight fig;
                                    shown := true |}) <$> gcf st |}
  end.

(** Running statements in order; the first exception ends the run. *)
Fixpoint run (p : list stmt) (st : store) : result store :=
  match p with
  | [] => Ok st
  | s :: p' => st' ← exec s st; run p' st'
  end.

(** The stores after each statement, oldest first. *)
Fixpoint trace (p : list stmt) (st : store) : result (list store) :=
  match p with
  | [] => Ok []
  | s :: p' => st' ← exec s st; tr ← trace p' st'; mret (st' :: tr)
  end.

(** The script with its dict literal as a parameter. *)
Definition script (d : dict) : list stmt :=
  [ AssignData d;                                                  (* 5-9 *)
    NewDataFrame;                                                  (* 12 *)
    SetIndexInplace "Class Name";                                  (* 15 *)
    PlotBarStacked (8, 6)%Z;                                       (* 18 *)
    SetTitle "Brain Tumor Image Dataset (Training vs Testing)";    (* 21 *)
    SetXlabel "Tumor Class";                                       (* 22 *)
    SetYlabel "Number of Images";                                  (* 23 *)
    LegendTitle "Subset";                                          (* 26 *)
    TightLayout;                                                   (* 29 *)
    ShowFigure ].                                                  (* 30 *)

(** [visualize.py]. *)
Definition visualize : list stmt := script data.

(** What the user gets to see: the axes of a figure that was shown. *)
Definition displayed (st : store) : option Axes :=
  fig ← gcf st; if shown fig then v_ax st else None.

(** Lines 5-15: the statements that make the table. *)
Definition build_table_stmts (d : dict) : list stmt := take 3 (script d).

(** ** Vocabulary of the properties *)

(** The three lists of the literal. *)
Definition categories : list pyval := default [] (dict_get "Class Name" data).
Definition training : list pyval := default [] (dict_get "Training" data).
Definition testing : list pyval := default [] (dict_get "Testing" data).

(** An input as the table construction expects it: a dict (no key twice)
    whose class names are pairwise different and whose lists all have one
    entry per class name. *)
Definition valid_input (d : dict) (cats : list pyval) : Prop :=
  NoDup (keys d) /\
  dict_get "Class Name" d = Some cats /\
  NoDup cats /\
  Forall (fun kv => length kv.2 = length cats) d.

#[global] Instance valid_input_dec d cats : Decision (valid_input d cats).
Proof. unfold valid_input. apply _. Defined.

(** Python's [<=] on labels: strings by code point, ints by value, and no
    order between a string and an int. *)
Definition label_le (a b : pyval) : Prop :=
  match a, b with
  | PStr s, PStr t => String.leb s t = true
  | PInt x, PInt y => (x <= y)%Z
  | _, _ => False
  end.

#[global] Instance label_le_dec a b : Decision (label_le a b).
Proof. destruct a, b; simpl; apply _. Defined.


(** Four class names against a list of three counts. *)
Definition data_short : dict :=
  [ ("Class Name", [PStr "Glioma"; PStr "Meningioma"; PStr "No tumor"; PStr "Pituitary"]);
    ("Training",   [PInt 1100;     PInt 1144;         PInt 1241;       PInt 1370]);
    ("Testing",    [PInt 221;      PInt 195;          PInt 216]) ].

(** The statements after the table is made: they draw, label and show. *)
Definition is_chart_stmt (s : stmt) : bool :=
  match s with
  | AssignData _ | NewDataFrame | SetIndexInplace _ => false
  | _ => true
  end.

(** What a store holds of the literal: the dict itself, and in the frame
    the class names and the two series, whether the class names are still a
    column or already the index. *)
Definition holds_literal (st : store) : Prop :=
  v_data st = Some data /\
  exists df, v_df st = Some df /\
    get_label_or_level_values "Class Name" df = Some categories /\
    get_label_or_level_values "Training" df = Some training /\
    get_label_or_level_values "Testing" df = Some testing.

(** The stacking rule in the words of the specification: the segment of
    series [k] over category [i] starts at the sum of the values that the
    series declared before [k] have for that category. *)
Definition prior_sum (series : list (string * list Z)) (k i : nat) : Z :=
  foldr Z.add 0%Z (omap (fun s => s.2 !! i) (take k series)).

(** The same rule as a drawing procedure: each series is drawn on top of
    the running sums [base], which then grow by the series' values; [n]
    counts the containers drawn before. *)
Fixpoint stacked_from (tick_pos : list nat) (n : nat) (base : list Z)
    (series : list (string * list Z)) : list BarContainer :=
  match series with
  | [] => []
  | (label, y) :: series' =>
      {| bc_label := container_label n label;
         bc_patches := bar_patches tick_pos y base |}
        :: stacked_from tick_pos (S n) (np_add base y) series'
  end.

(** The upper edge of the bar over tick [i]: the highest top among the
    segments drawn there. *)
Definition stack_top (ax : Axes) (i : nat) : Z :=
  foldr Z.max start_base
        (rect_top <$> omap (fun bc => bc_patches bc !! i) (containers ax)).


(** The columns of a frame that a bar plot draws. *)
Definition drawn_columns (df : DataFrame) : list (string * list pyval) :=
  filter (fun kv => is_numeric kv.2 = true) (columns df).

(** ** Vocabulary of the further properties *)

(** A frame is rectangular when each column has one value per row. *)
Definition rectangular (df : DataFrame) : Prop :=
  Forall (fun kv => length kv.2 = len df) (columns df).

(** All lists of a dict have the length [n]. *)
Definition aligned (d : dict) (n : nat) : Prop :=
  Forall (fun kv => length kv.2 = n) d.

(** Two lists of a dict differ in length. *)
Definition ragged (d : dict) : Prop :=
  exists k1 c1 k2 c2,
    (k1, c1) ∈ d /\ (k2, c2) ∈ d /\ length c1 <> length c2.





(** The drawing loop as a recursion over the series, for any signs: the
    starts are picked from the two running sums value by value; [n] counts
    the containers drawn before. *)
Fixpoint stacked_by_sign (tick_pos : list nat) (n : nat) (pos neg : list Z)
    (series : list (string * list Z)) : list BarContainer :=
  match series with
  | [] => []
  | (label, y) :: series' =>
      {| bc_label := container_label n label;
         bc_patches := bar_patches tick_pos y (np_where (np_ge0 y) pos neg) |}
        :: stacked_by_sign tick_pos (S n)
             (np_add pos (np_where (np_ge0 y) y (np_zeros (length y))))
             (np_add neg (np_where (np_ge0 y) (np_zeros (length y)) y))
             series'
  end.


(** A dict that names one class twice. *)
Definition data_repeated : dict :=
  [ ("Class Name", [PStr "Glioma"; PStr "Glioma"; PStr "Pituitary"]);
    ("Training",   [PInt 1100;     PInt 40;       PInt 1370]);
    ("Testing",    [PInt 221;      PInt 9;        PInt 225]) ].

(** A dict with a series whose name starts with an underscore. *)
Definition data_underscore : dict :=
  [ ("Class Name", [PStr "Glioma"; PStr "Pituitary"]);
    ("Training",   [PInt 1100;     PInt 1370]);
    ("_Held out",  [PInt 12;       PInt 7]);
    ("Testing",    [PInt 221;      PInt 225]) ].


(** * Properties *)

(** ** The exception monad *)

Lemma bind_Ok {A B} (f : A -> result B) (m : result A) (b : B) :
  m ≫= f = Ok b -> exists a, m = Ok a /\ f a = Ok b.
Proof. destruct m as [a|e]; simpl; [eauto | discriminate]. Qed.

Ltac inv_bind H :=
  let a := fresh "a" in
  let Ha := fresh "H" a in
  apply bind_Ok in H; destruct H as (a & Ha & H).

(** ** Table construction *)

Section lengths.
Implicit Types (l : list nat) (d : dict).

(** A non-empty list of equal numbers has one distinct element. *)
Lemma remove_dups_constant l n :
  l <> [] -> Forall (fun x => x = n) l -> remove_dups l = [n].
Proof.
  induction l as [|x l IH]; [done|].
  intros _ Hall. apply Forall_cons in Hall as [-> Hall]. simpl.
  destruct l as [|y l]; [done|].
  case_decide as Hin.
  - by apply IH.
  - exfalso. apply Hin. apply Forall_cons in Hall as [-> _]. left.
Qed.

(** Two different members leave at least two distinct elements. *)
Lemma remove_dups_two l x y :
  x ∈ l -> y ∈ l -> x <> y -> 1 < length (remove_dups l).
Proof.
  intros Hx Hy Hne.
  apply elem_of_remove_dups in Hx. apply elem_of_remove_dups in Hy.
  destruct (remove_dups l) as [|a [|b r]]; simpl; [| |lia].
  - by apply not_elem_of_nil in Hx.
  - apply list_elem_of_singleton in Hx. apply list_elem_of_singleton in Hy.
    congruence.
Qed.

Lemma dict_get_elem_of key d v : dict_get key d = Some v -> (key, v) ∈ d.
Proof.
  induction d as [|[k w] d IH]; simpl; [done|].
  case_decide as Hk.
  - intros [= ->]. subst. left.
  - intros H. right. by apply IH.
Qed.

(** Lists of one common length are accepted, whatever they hold. *)
Lemma pd_DataFrame_aligned d n :
  d <> [] -> Forall (fun kv => length kv.2 = n) d ->
  pd_DataFrame d =
    Ok {| index := RangeIndex n; index_name := None; columns := d |}.
Proof.
  intros Hne Hall. unfold pd_DataFrame.
  rewrite (remove_dups_constant _ n).
  - case_decide as Hlen; simpl in Hlen; [lia|done].
  - by destruct d.
  - by apply Forall_fmap.
Qed.

(** Lists of two different lengths are refused. *)
Lemma pd_DataFrame_mismatch d k1 c1 k2 c2 :
  (k1, c1) ∈ d -> (k2, c2) ∈ d -> length c1 <> length c2 ->
  pd_DataFrame d = Raise ValueError.
Proof.
  intros H1 H2 Hne. unfold pd_DataFrame.
  case_decide as Hlen; [done|]. exfalso. apply Hlen.
  apply (remove_dups_two _ (length c1) (length c2)); [| |done].
  - by apply (list_elem_of_fmap_2 (fun kv => length kv.2) _ (k1, c1)).
  - by apply (list_elem_of_fmap_2 (fun kv => length kv.2) _ (k2, c2)).
Qed.

(** The table of an aligned dict: the class names are the index, in the
    order of their list, and the other columns stay as they are. *)
Lemma build_table_aligned d cats :
  dict_get "Class Name" d = Some cats ->
  Forall (fun kv => length kv.2 = length cats) d ->
  build_table d =
    Ok {| index := cats; index_name := Some "Class Name";
          columns := filter (fun kv => kv.1 <> "Class Name") d |}.
Proof.
  intros Hget Hall. unfold build_table.
  rewrite (pd_DataFrame_aligned d (length cats)); [|by destruct d|done].
  simpl. unfold set_index. simpl. by rewrite Hget.
Qed.
End lengths.

(** C1. For the dict literal of the script, the table keyed by class name
    holds exactly four rows, Glioma (1100, 221), Meningioma (1144, 195),
    No tumor (1241, 216) and Pituitary (1370, 225), under the two columns
    Training and Testing, and nothing else; it is the frame the script
    holds after line 15. *)
Theorem table_of_literal :
  exists table,
    build_table data = Ok table /\
    column_names table = ["Training"; "Testing"] /\
    itertuples table =
      [ (PStr "Glioma",     [PInt 1100; PInt 221]);
        (PStr "Meningioma", [PInt 1144; PInt 195]);
        (PStr "No tumor",   [PInt 1241; PInt 216]);
        (PStr "Pituitary",  [PInt 1370; PInt 225]) ] /\
    (v_df <$> run (build_table_stmts data) empty_store) = Ok (Some table).
Proof.
  eexists. split; [reflexivity|]. by vm_compute.
Qed.

(** C3. Whenever some list of the dict has a length other than the number
    of class names, making the table raises instead of returning one. *)
Theorem build_table_rejects_mismatch (d : dict) (cats : list pyval)
    (name : string) (vals : list pyval) :
  dict_get "Class Name" d = Some cats ->
  (name, vals) ∈ d ->
  length vals <> length cats ->
  build_table d = Raise ValueError.
Proof.
  intros Hcats Hin Hne. unfold build_table.
  rewrite (pd_DataFrame_mismatch d name vals "Class Name" cats);
    [done|done| |done].
  by apply dict_get_elem_of.
Qed.

Lemma build_table_rejects_mismatch_witness :
  build_table data_short = Raise ValueError.
Proof.
  apply (build_table_rejects_mismatch data_short
           [PStr "Glioma"; PStr "Meningioma"; PStr "No tumor"; PStr "Pituitary"]
           "Testing" [PInt 221; PInt 195; PInt 216]).
  - reflexivity.
  - right. right. left.
  - simpl. lia.
Defined.

(** C6. For a valid input (a dict whose class names are pairwise different
    and whose lists all have one entry per class name) the table has as
    many rows as there are class names. *)
Theorem build_table_category_count (d : dict) (cats : list pyval) :
  valid_input d cats ->
  exists table, build_table d = Ok table /\ len table = length cats.
Proof.
  intros (_ & Hcats & _ & Hall).
  eexists. split; [by apply build_table_aligned|done].
Qed.

Lemma build_table_category_count_witness :
  valid_input data categories /\
  exists table, build_table data = Ok table /\ len table = 4.
Proof.
  assert (Hvalid : valid_input data categories).
  { apply (bool_decide_unpack _). vm_compute. exact I. }
  split; [exact Hvalid|].
  exact (build_table_category_count data categories Hvalid).
Defined.

(** C5. In the script's data the lists Training and Testing have four
    entries each, as many as there are class names, and an entry belongs to
    the class name at the same position: row [i] of the table is class name
    [i] with Training[i] and Testing[i]. *)
Theorem series_aligned_by_position :
  length categories = 4 /\ length training = 4 /\ length testing = 4 /\
  exists table,
    build_table data = Ok table /\
    itertuples table =
      zip categories (zip_with (fun a b => [a; b]) training testing) /\
    forall (i : nat) (c : pyval),
      categories !! i = Some c ->
      exists tr te,
        training !! i = Some tr /\ testing !! i = Some te /\
        loc table c = Some [tr; te].
Proof.
  do 3 (split; [reflexivity|]).
  eexists. split; [reflexivity|]. split; [reflexivity|].
  intros i c Hc.
  do 4 (destruct i as [|i];
        [injection Hc as <-; by eexists _, _|]).
  discriminate.
Qed.

Lemma series_aligned_by_position_witness :
  exists table,
    build_table data = Ok table /\
    loc table (PStr "No tumor") = Some [PInt 1241; PInt 216].
Proof.
  destruct series_aligned_by_position as (_ & _ & _ & table & Hb & _ & Hrow).
  exists table. split; [exact Hb|].
  destruct (Hrow 2 (PStr "No tumor") eq_refl) as (tr & te & Htr & Hte & Hloc).
  injection Htr as <-. injection Hte as <-. exact Hloc.
Defined.

(** ** The script as a run over the store *)

(** Lines 5-15 compute [build_table] of the dict and touch nothing but the
    variables [data] and [df]. *)
Lemma run_build_table_stmts (d : dict) (st : store) :
  run (build_table_stmts d) st =
    table ← build_table d;
    mret {| v_data := Some d; v_df := Some table; v_ax := v_ax st; gcf := gcf st |}.
Proof.
  unfold build_table_stmts, build_table. simpl.
  destruct (pd_DataFrame d) as [df|e]; simpl; [|done].
  by destruct (set_index "Class Name" df).
Qed.

(** C7. Making the table is a function of the dict alone: for a valid
    input it returns a table, running it again on the store it left behind
    changes nothing, and from any other store it yields the same table. *)
Theorem build_table_rerun (d : dict) (cats : list pyval) (st : store) :
  valid_input d cats ->
  exists table st1,
    build_table d = Ok table /\
    run (build_table_stmts d) st = Ok st1 /\
    v_data st1 = Some d /\ v_df st1 = Some table /\
    run (build_table_stmts d) st1 = Ok st1 /\
    forall st', v_df <$> run (build_table_stmts d) st' = Ok (Some table).
Proof.
  intros (_ & Hcats & _ & Hall).
  pose proof (build_table_aligned d cats Hcats Hall) as Hb.
  set (table := {| index := cats; index_name := Some "Class Name";
                   columns := filter (fun kv => kv.1 <> "Class Name") d |}) in *.
  exists table,
    {| v_data := Some d; v_df := Some table; v_ax := v_ax st; gcf := gcf st |}.
  split; [exact Hb|].
  repeat split; try intros st'; by rewrite run_build_table_stmts, Hb.
Qed.

Lemma build_table_rerun_witness :
  exists table st1,
    build_table data = Ok table /\
    run (build_table_stmts data) empty_store = Ok st1 /\
    v_data st1 = Some data /\ v_df st1 = Some table /\
    run (build_table_stmts data) st1 = Ok st1 /\
    forall st', v_df <$> run (build_table_stmts data) st' = Ok (Some table).
Proof.
  apply (build_table_rerun data categories empty_store).
  apply (bool_decide_unpack _). vm_compute. exact I.
Defined.

(** Statements that draw, label or show leave [data] and [df] alone. *)
Lemma exec_chart_frame (s : stmt) (st st' : store) :
  is_chart_stmt s = true -> exec s st = Ok st' ->
  v_data st' = v_data st /\ v_df st' = v_df st.
Proof.
  destruct s; simpl; try discriminate; intros _ H;
    unfold with_ax in H; simpl in H;
    repeat (let x := fresh in inv_bind H);
    by injection H as <-.
Qed.

Lemma trace_chart_frame (p : list stmt) (st : store) (tr : list store) :
  forallb is_chart_stmt p = true -> trace p st = Ok tr ->
  Forall (fun st' => v_data st' = v_data st /\ v_df st' = v_df st) tr.
Proof.
  revert st tr. induction p as [|s p IH]; intros st tr Hp H; simpl in *.
  - injection H as <-. constructor.
  - apply andb_prop in Hp as [Hs Hp].
    inv_bind H. inv_bind H. injection H as <-.
    destruct (exec_chart_frame s st a Hs Ha) as [Hd Hf].
    constructor; [done|].
    eapply Forall_impl; [by apply IH|].
    simpl. intros st' [-> ->]. done.
Qed.

(** Moving a column into the index keeps every stored value reachable
    under its old name. *)
Lemma set_index_keeps_values (key name : string) (df df' : DataFrame) :
  index_name df = None -> set_index key df = Ok df' ->
  get_label_or_level_values name df' = get_label_or_level_values name df.
Proof.
  unfold set_index, get_label_or_level_values, getitem. intros -> H.
  destruct (dict_get key (columns df)) as [col|] eqn:Hkey; [|done].
  injection H as <-. simpl.
  destruct (decide (None = Some name)) as [?|_]; [done|].
  case_decide as Hn.
  - injection Hn as ->. by rewrite Hkey.
  - clear Hkey. induction (columns df) as [|[k v] cs IH]; [done|].
    simpl. rewrite filter_cons. simpl.
    destruct (decide (k <> key)) as [Hk|Hk]; simpl.
    + case_decide; [done|]. apply IH.
    + rewrite decide_False; [apply IH|]. intros ->. apply Hk. congruence.
Qed.

(** C8. Once the frame is constructed, no statement of the script changes
    the data: after each of the nine statements from line 12 on, the dict
    is the literal and the frame holds the literal's class names, Training
    and Testing values; from line 15 on the frame is one unchanging table. *)
Theorem data_never_mutated :
  exists tr table,
    trace visualize empty_store = Ok tr /\
    length tr = length visualize /\
    build_table data = Ok table /\
    Forall holds_literal (drop 1 tr) /\
    Forall (fun st => v_df st = Some table) (drop 2 tr).
Proof.
  eexists _, _. split; [by vm_compute|].
  split; [reflexivity|]. split; [reflexivity|]. simpl. split.
  - repeat constructor; by eexists.
  - repeat constructor.
Qed.

(** ** Drawing *)

Section numpy.
Implicit Types (y a b : list Z) (mask : list bool).

Lemma np_where_all_positive y a b :
  Forall (fun v => 0 < v)%Z y -> length a = length y -> length b = length y ->
  np_where (np_ge0 y) a b = a.
Proof.
  intros Hy. revert a b.
  induction Hy as [|v y Hv Hy IH]; intros [|x a] [|z b]; simpl; try done.
  intros [= Ha] [= Hb]. rewrite bool_decide_true by lia.
  by rewrite IH.
Qed.

Lemma np_where_no_positive_else y a b :
  Forall (fun v => 0 < v)%Z y -> length a = length y -> length b = length y ->
  np_where (np_ge0 y) b a = b.
Proof. intros. by apply np_where_all_positive. Qed.

Lemma length_np_zeros n : length (np_zeros n) = n.
Proof. apply length_replicate. Qed.

Lemma np_add_zeros a n : length a = n -> np_add a (np_zeros n) = a.
Proof.
  intros <-. induction a as [|x a IH]; simpl; [done|].
  unfold np_add, np_zeros in *. simpl. rewrite IH. f_equal. lia.
Qed.

Lemma length_np_add a b : length b = length a -> length (np_add a b) = length a.
Proof. intros H. unfold np_add. rewrite length_zip_with. lia. Qed.

Lemma np_add_lookup a b i :
  np_add a b !! i = (x ← a !! i; z ← b !! i; Some (x + z)%Z).
Proof. apply lookup_zip_with. Qed.

Lemma add_start_base a : (fun v => v + start_base)%Z <$> a = a.
Proof.
  induction a as [|x a IH]; [done|].
  rewrite fmap_cons, IH. unfold start_base. f_equal. lia.
Qed.



Lemma length_np_where mask a b (n : nat) :
  length mask = n -> length a = n -> length b = n ->
  length (np_where mask a b) = n.
Proof.
  revert a b n.
  induction mask as [|m mask IH]; intros [|x a] [|y b] n; simpl;
    intros <-; try done.
  intros [= Ha] [= Hb]. f_equal. by apply IH.
Qed.

Lemma length_np_ge0 y : length (np_ge0 y) = length y.
Proof. apply length_fmap. Qed.
End numpy.

Lemma bar_patches_lookup (tp : list nat) (y b : list Z) (i : nat) (r : Rectangle) :
  bar_patches tp y b !! i = Some r ->
  tp !! i = Some (rect_x r) /\ y !! i = Some (rect_height r) /\
  b !! i = Some (rect_bottom r).
Proof.
  revert y b i. induction tp as [|x tp IH]; intros [|h y] [|s b] i; simpl; try done.
  destruct i as [|i]; simpl.
  - by intros [= <-].
  - apply IH.
Qed.


Lemma length_bar_patches (tp : list nat) (y s : list Z) (n : nat) :
  length tp = n -> length y = n -> length s = n ->
  length (bar_patches tp y s) = n.
Proof.
  revert y s n.
  induction tp as [|x tp IH]; intros [|h y] [|b s] n; simpl;
    intros <-; try done.
  intros [= Hy] [= Hs]. f_equal. by apply IH.
Qed.

(** A container keeps a label of its own, and the private label it gets
    otherwise is one the legend skips, as it skips the empty one. *)
Lemma container_label_named (n : nat) (label : string) :
  label <> "" -> container_label n label = label.
Proof. intros H. unfold container_label. by rewrite decide_False. Qed.

Lemma container_label_ok (n : nat) (label : string) :
  legend_label_ok (container_label n label) = legend_label_ok label.
Proof. unfold container_label. case_decide as H; [by rewrite H|done]. Qed.

Lemma legend_label_ok_named (label : string) :
  legend_label_ok label = true -> label <> "".
Proof. by intros H ->. Qed.

(** The drawing loop is the recursion [stacked_by_sign]: it adds one
    container per series, in the order of the series. *)
Lemma foldl_make_plot_by_sign (tp : list nat) (series : list (string * list Z)) :
  forall st : stacking,
    containers (drawn (foldl (make_plot_step tp) st series))
      = (containers (drawn st)
           ++ stacked_by_sign tp (length (containers (drawn st)))
                (pos_prior st) (neg_prior st) series)%list.
Proof.
  induction series as [|[label y] series IH]; intros st.
  - simpl. by rewrite app_nil_r.
  - change (foldl (make_plot_step tp) st ((label, y) :: series))
      with (foldl (make_plot_step tp) (make_plot_step tp st (label, y)) series).
    rewrite IH. simpl. rewrite add_start_base, length_app. simpl.
    rewrite Nat.add_1_r. by rewrite <- app_assoc.
Qed.

(** The loop draws bars and writes no text. *)
Lemma foldl_make_plot_texts (tp : list nat) (series : list (string * list Z)) :
  forall st : stacking,
    let ax := drawn (foldl (make_plot_step tp) st series) in
    title ax = title (drawn st) /\ xlabel ax = xlabel (drawn st) /\
    ylabel ax = ylabel (drawn st).
Proof.
  induction series as [|[label y] series IH]; intros st; [done|].
  change (foldl (make_plot_step tp) st ((label, y) :: series))
    with (foldl (make_plot_step tp) (make_plot_step tp st (label, y)) series).
  apply (IH (make_plot_step tp st (label, y))).
Qed.

(** On series of positive values the loop is the stacking rule: every
    series is drawn from the running sums of the ones before it. *)
Lemma stacked_by_sign_positive (tp : list nat) (m : nat)
    (series : list (string * list Z)) :
  length tp = m ->
  forall (n : nat) (pos : list Z),
    Forall (fun s => length s.2 = m /\ Forall (fun v => 0 < v)%Z s.2) series ->
    length pos = m ->
    stacked_by_sign tp n pos (np_zeros m) series
      = stacked_from tp n pos series.
Proof.
  intros Htp.
  induction series as [|[label y] series IH]; intros n pos Hs Hpos; [done|].
  apply Forall_cons in Hs as [[Hlen Hy] Hs]. simpl in Hlen, Hy.
  assert (Hzl : length (np_zeros (length y)) = length y)
    by apply length_np_zeros.
  simpl.
  rewrite (np_where_all_positive y pos)
    by (done || lia || (rewrite length_np_zeros; lia)).
  rewrite (np_where_all_positive y y) by done.
  rewrite np_where_no_positive_else by done.
  rewrite Hlen, (np_add_zeros (np_zeros m)) by apply length_np_zeros.
  f_equal. apply IH; [done|]. rewrite length_np_add; lia.
Qed.

Lemma prior_sum_S (s : string * list Z) (series : list (string * list Z))
    (k i : nat) (h : Z) :
  s.2 !! i = Some h ->
  prior_sum (s :: series) (S k) i = (h + prior_sum series k i)%Z.
Proof. intros H. unfold prior_sum. simpl. by rewrite H. Qed.

(** Reading one segment off the stacking rule. *)
Lemma stacked_from_lookup (tp : list nat) (series : list (string * list Z)) :
  forall (n : nat) (base : list Z) (k i : nat) (bc : BarContainer)
         (r : Rectangle),
    stacked_from tp n base series !! k = Some bc ->
    bc_patches bc !! i = Some r ->
    exists b s,
      base !! i = Some b /\ series !! k = Some s /\
      bc_label bc = container_label (n + k) s.1 /\
      s.2 !! i = Some (rect_height r) /\
      tp !! i = Some (rect_x r) /\
      rect_bottom r = (b + prior_sum series k i)%Z.
Proof.
  induction series as [|[label y] series IH]; intros n base k i bc r Hk Hi;
    [done|].
  destruct k as [|k]; simpl in Hk.
  - injection Hk as <-. simpl in Hi.
    apply bar_patches_lookup in Hi as (Hx & Hh & Hb).
    exists (rect_bottom r), (label, y). unfold prior_sum. simpl.
    rewrite Nat.add_0_r. repeat split; try done. lia.
  - destruct (IH _ _ _ _ _ _ Hk Hi) as (b' & s & Hb' & Hs & Hl & Hh & Hx & Hbot).
    rewrite np_add_lookup in Hb'.
    destruct (base !! i) as [b|] eqn:Hb; [|done].
    destruct (y !! i) as [h|] eqn:Hy; [|done].
    injection Hb' as <-.
    exists b, s. rewrite Nat.add_succ_r. repeat split; try done.
    rewrite (prior_sum_S (label, y) series k i h) by done. lia.
Qed.



Lemma stacked_by_sign_lengths (tp : list nat) (m : nat)
    (series : list (string * list Z)) :
  length tp = m ->
  Forall (fun s => length s.2 = m) series ->
  forall n pos neg, length pos = m -> length neg = m ->
    Forall (fun bc => length (bc_patches bc) = m)
           (stacked_by_sign tp n pos neg series).
Proof.
  intros Htp Hs. induction Hs as [|[label y] series Hy Hs IH];
    intros n pos neg Hpos Hneg; simpl; [constructor|].
  simpl in Hy.
  assert (Hm : length (np_ge0 y) = m) by by rewrite length_np_ge0.
  assert (Hz : length (np_zeros (length y)) = m)
    by by rewrite length_np_zeros.
  constructor.
  - simpl. apply length_bar_patches; [done|done|].
    by apply length_np_where.
  - apply IH.
    + rewrite length_np_add; [done|]. rewrite Hpos. by apply length_np_where.
    + rewrite length_np_add; [done|]. rewrite Hneg. by apply length_np_where.
Qed.

(** The legend's view of the labels: the series with a name it accepts,
    under that name. *)
Lemma stacked_by_sign_legend_labels (tp : list nat)
    (series : list (string * list Z)) :
  forall (n : nat) (pos neg : list Z),
    filter (fun s => legend_label_ok s = true)
           (bc_label <$> stacked_by_sign tp n pos neg series)
    = filter (fun s => legend_label_ok s = true) (fst <$> series).
Proof.
  induction series as [|[label y] series IH]; intros n pos neg; [done|].
  cbn [stacked_by_sign]. rewrite !fmap_cons.
  rewrite !(filter_cons (fun s : string => legend_label_ok s = true)).
  cbn [bc_label fst]. rewrite IH.
  destruct (decide (legend_label_ok label = true)) as [Hok|Hno].
  - rewrite container_label_named by by apply legend_label_ok_named.
    by rewrite decide_True.
  - rewrite decide_False; [done|]. by rewrite container_label_ok.
Qed.

(** Numeric columns hold ints only, entry for entry. *)
Lemma is_numeric_ints (col : list pyval) :
  is_numeric col = true -> Forall (fun v => exists z, v = PInt z) col.
Proof.
  unfold is_numeric. intros H. apply orb_prop in H.
  apply Forall_forall. intros v Hv.
  destruct H as [H|H]; rewrite forallb_forall in H;
    specialize (H v (proj1 (list_elem_of_In _ _) Hv));
    destruct v as [s|z]; try done; by exists z.
Qed.

Lemma length_to_numpy (col : list pyval) :
  is_numeric col = true -> length (to_numpy col) = length col.
Proof.
  intros H%is_numeric_ints. unfold to_numpy.
  induction H as [|v col [z ->] _ IH]; csimpl; [done|]. by rewrite IH.
Qed.



Lemma numeric_data_rectangular (df : DataFrame) :
  rectangular df -> Forall (fun s => length s.2 = len df) (numeric_data df).
Proof.
  unfold rectangular, numeric_data. intros Hrect.
  rewrite Forall_fmap. apply Forall_forall.
  intros kv [Hnum Hin]%list_elem_of_filter. simpl.
  rewrite length_to_numpy by done.
  rewrite Forall_forall in Hrect. by apply Hrect.
Qed.

(** What a successful [plot] leaves on the axes. *)
Lemma plot_Ok (df : DataFrame) (ax : Axes) :
  plot df = Ok ax ->
  containers ax
    = containers (drawn (make_plot (seq 0 (len df)) (numeric_data df) subplots)) /\
  xticks ax = seq 0 (len df) /\
  xticklabels ax = pprint_thing <$> index df.
Proof.
  unfold plot. repeat case_decide; try done.
  intros [= <-]. by destruct (index_name df).
Qed.

(** The containers of a plot are those of the recursion, started empty. *)
Lemma plot_containers (df : DataFrame) (ax : Axes) :
  plot df = Ok ax ->
  containers ax
    = stacked_by_sign (seq 0 (len df)) 0
        (np_zeros (len df)) (np_zeros (len df)) (numeric_data df).
Proof.
  intros (-> & _)%plot_Ok. unfold make_plot.
  rewrite foldl_make_plot_by_sign. simpl. by rewrite length_seq.
Qed.

(** The stacking rule, for any frame whose numeric columns are full and
    hold positive values: the segment of series [k] over row [i] sits on
    tick [i], starts at the sum of the earlier series there and is as high
    as the series' own value. *)
Lemma plot_stacks_cumulatively (df : DataFrame) (ax : Axes) (k i : nat)
    (bc : BarContainer) (r : Rectangle) :
  Forall (fun s => length s.2 = len df /\ Forall (fun v => 0 < v)%Z s.2)
         (numeric_data df) ->
  plot df = Ok ax ->
  containers ax !! k = Some bc ->
  bc_patches bc !! i = Some r ->
  rect_x r = i /\
  rect_bottom r = prior_sum (numeric_data df) k i /\
  exists s, numeric_data df !! k = Some s /\
            bc_label bc = container_label k s.1 /\
            s.2 !! i = Some (rect_height r).
Proof.
  intros Hpos Hc%plot_containers Hk Hi.
  rewrite (stacked_by_sign_positive _ (len df)) in Hc;
    [|by rewrite length_seq|done|by rewrite length_np_zeros].
  rewrite Hc in Hk.
  destruct (stacked_from_lookup _ _ _ _ _ _ _ _ Hk Hi)
    as (b & s & Hb & Hs & Hl & Hh & Hx & Hbot).
  apply lookup_seq in Hx as [Hx _].
  apply lookup_replicate in Hb as [-> _].
  split; [done|]. split; [lia|]. by exists s.
Qed.

(** ** The chart of the script *)

(** C2. In the chart the script shows, the segment of series [k] over
    category [i] starts at the sum of the values the series declared before
    it have for that category: the Training segment starts at 0 and is
    Training[i] high, the Testing segment starts at Training[i] and is
    Testing[i] high, and the bar over category [i] ends at
    Training[i] + Testing[i]. *)
Theorem stacked_segments_cumulative (st : store) (ax : Axes) (k i : nat)
    (bc : BarContainer) (r : Rectangle) :
  run visualize empty_store = Ok st ->
  displayed st = Some ax ->
  containers ax !! k = Some bc ->
  bc_patches bc !! i = Some r ->
  exists table tr te,
    v_df st = Some table /\
    training !! i = Some (PInt tr) /\ testing !! i = Some (PInt te) /\
    rect_x r = i /\
    rect_bottom r = prior_sum (numeric_data table) k i /\
    (k = 0 /\ bc_label bc = "Training" /\
       rect_bottom r = 0%Z /\ rect_height r = tr
     \/
     k = 1 /\ bc_label bc = "Testing" /\
       rect_bottom r = tr /\ rect_height r = te) /\
    stack_top ax i = (tr + te)%Z.
Proof.
  intros Hrun Hshow Hk Hi.
  vm_compute in Hrun. injection Hrun as <-.
  vm_compute in Hshow. injection Hshow as <-.
  destruct k as [|[|k]]; [| |done]; simpl in Hk; injection Hk as <-;
    (destruct i as [|[|[|[|i]]]]; [| | | |done]);
    simpl in Hi; injection Hi as <-;
    eexists _, _, _;
    (split; [reflexivity|]); (split; [reflexivity|]); (split; [reflexivity|]);
    (split; [reflexivity|]); (split; [reflexivity|]);
    (split; [|reflexivity]);
    solve [left; repeat split; reflexivity | right; repeat split; reflexivity].
Qed.

Lemma stacked_segments_cumulative_witness :
  exists st ax bc r,
    run visualize empty_store = Ok st /\
    displayed st = Some ax /\
    containers ax !! 1 = Some bc /\
    bc_patches bc !! 0 = Some r /\
    rect_bottom r = 1100%Z /\ rect_height r = 221%Z /\
    stack_top ax 0 = 1321%Z.
Proof.
  assert (exists st, run visualize empty_store = Ok st) as [st Hrun]
    by (vm_compute; eauto).
  assert (exists ax, displayed st = Some ax) as [ax Hshow]
    by (vm_compute in Hrun; injection Hrun as <-; vm_compute; eauto).
  assert (exists bc, containers ax !! 1 = Some bc) as [bc Hk].
  { vm_compute in Hrun. injection Hrun as <-.
    vm_compute in Hshow. injection Hshow as <-. vm_compute. eauto. }
  assert (exists r, bc_patches bc !! 0 = Some r) as [r Hi].
  { vm_compute in Hrun. injection Hrun as <-.
    vm_compute in Hshow. injection Hshow as <-.
    vm_compute in Hk. injection Hk as <-. vm_compute. eauto. }
  exists st, ax, bc, r. do 4 (split; [assumption|]).
  destruct (stacked_segments_cumulative st ax 1 0 bc r Hrun Hshow Hk Hi)
    as (table & tr & te & _ & Htr & Hte & _ & _ & Hseg & Htop).
  injection Htr as <-. injection Hte as <-.
  destruct Hseg as [(Hk0 & _)|(_ & _ & Hb & Hh)]; [discriminate Hk0|].
  repeat split; assumption.
Defined.

(** The general rule behind C2, applied to the script's own table. *)
Lemma script_table_stacks_cumulatively (table : DataFrame) (ax : Axes)
    (k i : nat) (bc : BarContainer) (r : Rectangle) :
  build_table data = Ok table ->
  plot table = Ok ax ->
  containers ax !! k = Some bc ->
  bc_patches bc !! i = Some r ->
  rect_bottom r = prior_sum (numeric_data table) k i.
Proof.
  intros [= <-] Hplot Hk Hi.
  eapply plot_stacks_cumulatively; [|exact Hplot|exact Hk|exact Hi].
  repeat constructor.
Qed.




(** The declaration order of the literal happens to be the alphabetical
    one, so only another input, such as the one above, tells the two
    apart. *)
Lemma literal_order_is_alphabetical : Sorted label_le categories.
Proof. repeat constructor. Qed.

(** C9. Whatever title, axis labels and legend title are given, rendering
    the script's table puts exactly them on the chart, and the legend lists
    the two series by name, Training then Testing, each entry standing for
    the segments drawn for that series.  The chart the script shows is this
    rendering with the four strings of lines 21-26. *)
Theorem render_applies_texts (title_ x_label y_label legend_title_ : string) :
  exists table ax l training_bars testing_bars,
    build_table data = Ok table /\
    render table title_ x_label y_label legend_title_ = Ok ax /\
    title ax = title_ /\ xlabel ax = x_label /\ ylabel ax = y_label /\
    legend_ ax = Some l /\ legend_title l = legend_title_ /\
    containers ax = [training_bars; testing_bars] /\
    legend_entries l = [("Training", training_bars); ("Testing", testing_bars)] /\
    (rect_height <$> bc_patches training_bars)
      = [1100; 1144; 1241; 1370]%Z /\
    (rect_height <$> bc_patches testing_bars)
      = [221; 195; 216; 225]%Z /\
    (displayed <$> run visualize empty_store)
      = Some <$> render table
          "Brain Tumor Image Dataset (Training vs Testing)"
          "Tumor Class" "Number of Images" "Subset".
Proof.
  eexists _, _, _, _, _. split; [reflexivity|].
  split; [by vm_compute|].
  repeat split; reflexivity.
Qed.

(** The same for any table that can be drawn: the texts are the given
    ones and the legend has one entry per series with a name the legend
    accepts, under the series' own label. *)
Lemma render_texts (table : DataFrame)
    (title_ x_label y_label legend_title_ : string) (ax : Axes) :
  render table title_ x_label y_label legend_title_ = Ok ax ->
  title ax = title_ /\ xlabel ax = x_label /\ ylabel ax = y_label /\
  filter (fun s => legend_label_ok s = true) (bc_label <$> containers ax)
    = filter (fun s => legend_label_ok s = true) (fst <$> numeric_data table) /\
  legend_ ax =
    Some {| legend_title := legend_title_;
            legend_entries :=
              (fun bc => (bc_label bc, bc)) <$>
                filter (fun bc => legend_label_ok (bc_label bc) = true)
                       (containers ax) |}.
Proof.
  unfold render. intros H. inv_bind H. injection H as <-. simpl.
  repeat split.
  rewrite (plot_containers _ _ Ha). apply stacked_by_sign_legend_labels.
Qed.

(** The whole script is: make the table, render it with the four strings,
    lay out and show. *)
Lemma run_script (d : dict) :
  run (script d) empty_store =
    table ← build_table d;
    ax ← render table "Brain Tumor Image Dataset (Training vs Testing)"
                "Tumor Class" "Number of Images" "Subset";
    mret {| v_data := Some d; v_df := Some table; v_ax := Some ax;
            gcf := Some {| figsize := Some (8, 6)%Z; tight := true;
                           shown := true |} |}.
Proof.
  unfold script, build_table, render. simpl.
  destruct (pd_DataFrame d) as [df|e]; simpl; [|done].
  destruct (set_index "Class Name" df) as [table|e]; simpl; [|done].
  by destruct (plot table) as [ax|e].
Qed.

(** C10. Whatever dict the script is run on, if it gets to show a chart
    then the chart's title is 'Brain Tumor Image Dataset (Training vs
    Testing)', its x label 'Tumor Class', its y label 'Number of Images'
    and its legend title 'Subset': the four texts are constants of the
    script and take nothing from the data. *)
Theorem chart_texts_fixed (d : dict) (st : store) :
  run (script d) empty_store = Ok st ->
  exists ax l,
    displayed st = Some ax /\
    title ax = "Brain Tumor Image Dataset (Training vs Testing)" /\
    xlabel ax = "Tumor Class" /\
    ylabel ax = "Number of Images" /\
    legend_ ax = Some l /\ legend_title l = "Subset".
Proof.
  rewrite run_script. intros H.
  inv_bind H. inv_bind H. injection H as <-.
  destruct (render_texts _ _ _ _ _ _ Ha0) as (Ht & Hx & Hy & _ & Hl).
  eexists _, _. split; [reflexivity|]. rewrite Hl. by repeat split.
Qed.

Lemma chart_texts_fixed_witness :
  exists st ax l,
    run visualize empty_store = Ok st /\
    displayed st = Some ax /\
    title ax = "Brain Tumor Image Dataset (Training vs Testing)" /\
    xlabel ax = "Tumor Class" /\
    ylabel ax = "Number of Images" /\
    legend_ ax = Some l /\ legend_title l = "Subset".
Proof.
  assert (exists st, run (script data) empty_store = Ok st) as [st Hrun]
    by (vm_compute; eauto).
  destruct (chart_texts_fixed data st Hrun) as (ax & l & H).
  exists st, ax, l. split; [exact Hrun|exact H].
Defined.

(** * Further properties *)

(** ** Which dicts make a frame *)

Lemma remove_dups_short (l : list nat) :
  length (remove_dups l) <= 1 ->
  Forall (fun x => x = default 0 (head (remove_dups l))) l.
Proof.
  intros Hlen. apply Forall_forall. intros x Hx.
  apply elem_of_remove_dups in Hx.
  destruct (remove_dups l) as [|a [|b r]]; simpl in *; [| |lia].
  - by apply not_elem_of_nil in Hx.
  - by apply list_elem_of_singleton in Hx.
Qed.

Lemma remove_dups_long (l : list nat) :
  1 < length (remove_dups l) -> exists x y, x ∈ l /\ y ∈ l /\ x <> y.
Proof.
  intros Hlen. pose proof (NoDup_remove_dups l) as Hnd.
  assert (Hsub : forall x, x ∈ remove_dups l -> x ∈ l)
    by (intros x; apply elem_of_remove_dups).
  destruct (remove_dups l) as [|a [|b r]]; simpl in Hlen; [lia|lia|].
  exists a, b. split; [apply Hsub; left|].
  split; [apply Hsub; right; left|].
  apply NoDup_cons in Hnd as [Ha _]. intros ->. apply Ha. left.
Qed.

Lemma length_RangeIndex (n : nat) : length (RangeIndex n) = n.
Proof. unfold RangeIndex. by rewrite length_fmap, length_seq. Qed.

(** An aligned dict cannot be ragged. *)
Lemma aligned_not_ragged (d : dict) (n : nat) : aligned d n -> ~ ragged d.
Proof.
  intros Hal (k1 & c1 & k2 & c2 & H1 & H2 & Hne).
  unfold aligned in Hal. rewrite Forall_forall in Hal.
  apply Hne. pose proof (Hal _ H1) as E1. pose proof (Hal _ H2) as E2.
  simpl in E1, E2. congruence.
Qed.

(** The two outcomes of [pd.DataFrame] on a dict of lists. *)
Lemma pd_DataFrame_cases (d : dict) :
  (exists n, aligned d n /\
     pd_DataFrame d =
       Ok {| index := RangeIndex n; index_name := None; columns := d |})
  \/ (ragged d /\ pd_DataFrame d = Raise ValueError).
Proof.
  unfold pd_DataFrame.
  set (ls := (fun kv : string * list pyval => length kv.2) <$> d).
  case_decide as Hlen.
  - right. split; [|done].
    destruct (remove_dups_long ls Hlen) as (x & y & Hx & Hy & Hne).
    apply list_elem_of_fmap in Hx as ([k1 c1] & -> & H1).
    apply list_elem_of_fmap in Hy as ([k2 c2] & -> & H2).
    by exists k1, c1, k2, c2.
  - left. eexists. split; [|reflexivity].
    unfold aligned. pose proof (remove_dups_short ls) as Hs.
    unfold ls in *. rewrite Forall_fmap in Hs. apply Hs. lia.
Qed.

(** X1. [pd.DataFrame] returns a frame exactly for the dicts whose lists
    all have one length, and then the frame is rectangular with the dict's
    columns in the dict's order. *)
Theorem pd_DataFrame_accepts_iff (d : dict) :
  ((exists df, pd_DataFrame d = Ok df) <-> exists n, aligned d n) /\
  (forall df, pd_DataFrame d = Ok df ->
     rectangular df /\ columns df = d /\ index_name df = None).
Proof.
  destruct (pd_DataFrame_cases d) as [(n & Hal & ->)|(Hr & ->)].
  - split; [split; eauto|].
    intros df [= <-]. unfold rectangular, len. simpl.
    by rewrite length_RangeIndex.
  - split; [|done]. split; intros [x Hx]; [done|].
    by destruct (aligned_not_ragged d x).
Qed.

Lemma pd_DataFrame_accepts_iff_witness :
  exists df, pd_DataFrame data = Ok df /\ rectangular df /\ len df = 4.
Proof.
  assert (Hal : exists n, aligned data n)
    by (exists 4; repeat constructor).
  destruct (proj2 (proj1 (pd_DataFrame_accepts_iff data)) Hal) as [df Hdf].
  exists df. split; [exact Hdf|].
  destruct (proj2 (pd_DataFrame_accepts_iff data) df Hdf) as (Hrect & _ & _).
  split; [exact Hrect|].
  vm_compute in Hdf. injection Hdf as <-. reflexivity.
Defined.

(** ** What the table is, and how making it fails *)

Lemma dict_get_filter_out (key : string) (cs : dict) :
  dict_get key (filter (fun kv => kv.1 <> key) cs) = None.
Proof.
  induction cs as [|[k v] cs IH]; [done|].
  rewrite (filter_cons (fun kv : string * list pyval => kv.1 <> key)).
  simpl. destruct (decide (k <> key)) as [Hk|Hk]; [|done].
  simpl. by rewrite decide_False.
Qed.

Lemma set_index_rectangular (key : string) (df df' : DataFrame) :
  rectangular df -> set_index key df = Ok df' ->
  rectangular df' /\ len df' = len df.
Proof.
  unfold set_index, rectangular. intros Hrect H.
  destruct (dict_get key (columns df)) as [col|] eqn:Hkey; [|done].
  injection H as <-. unfold len in *. simpl.
  rewrite Forall_forall in Hrect.
  pose proof (Hrect _ (dict_get_elem_of _ _ _ Hkey)) as Hcol. simpl in Hcol.
  split; [|done]. apply Forall_forall. intros kv [_ Hin]%list_elem_of_filter.
  rewrite Hcol. by apply Hrect.
Qed.

(** What a returned table was made from. *)
Lemma build_table_Ok_inv (d : dict) (table : DataFrame) :
  build_table d = Ok table ->
  exists n cats,
    aligned d n /\ dict_get "Class Name" d = Some cats /\ length cats = n /\
    table = {| index := cats; index_name := Some "Class Name";
               columns := filter (fun kv => kv.1 <> "Class Name") d |}.
Proof.
  unfold build_table.
  destruct (pd_DataFrame_cases d) as [(n & Hal & ->)|(_ & ->)]; [|done].
  simpl. unfold set_index. simpl.
  destruct (dict_get "Class Name" d) as [cats|] eqn:Hcats; [|done].
  intros [= <-]. exists n, cats. repeat split; try done.
  unfold aligned in Hal. rewrite Forall_forall in Hal.
  apply (Hal _ (dict_get_elem_of _ _ _ Hcats)).
Qed.

(** X2. Whenever the table is made, it is rectangular, its index is the
    list stored under 'Class Name' and carries that name, and its columns
    are the other lists of the dict in the dict's order, so that no column
    is called 'Class Name' any more. *)
Theorem build_table_shape (d : dict) (table : DataFrame) :
  build_table d = Ok table ->
  rectangular table /\
  dict_get "Class Name" d = Some (index table) /\
  index_name table = Some "Class Name" /\
  columns table = filter (fun kv => kv.1 <> "Class Name") d /\
  getitem "Class Name" table = None.
Proof.
  intros H.
  destruct (build_table_Ok_inv d table H) as (n & cats & Hal & Hcats & Hn & ->).
  unfold rectangular, len, getitem. simpl.
  split; [|repeat split; [done|apply dict_get_filter_out]].
  unfold aligned in Hal. rewrite Forall_forall in Hal.
  apply Forall_forall. intros kv [_ Hin]%list_elem_of_filter.
  rewrite Hn. by apply Hal.
Qed.

Lemma build_table_shape_witness :
  exists table,
    build_table data_repeated = Ok table /\
    rectangular table /\
    column_names table = ["Training"; "Testing"].
Proof.
  assert (exists table, build_table data_repeated = Ok table) as [table Hb]
    by (vm_compute; eauto).
  exists table. split; [exact Hb|].
  destruct (build_table_shape data_repeated table Hb) as (Hrect & _ & _ & Hc & _).
  split; [exact Hrect|]. unfold column_names. rewrite Hc. reflexivity.
Defined.

(** X3. Making the table fails in two ways only.  It raises ValueError
    exactly when two lists of the dict differ in length, whether or not
    there is a 'Class Name'; it raises KeyError exactly when the lists
    agree in length and none is stored under 'Class Name'. *)
Theorem build_table_errors (d : dict) :
  (build_table d = Raise ValueError <-> ragged d) /\
  (build_table d = Raise KeyError <->
     (exists n, aligned d n) /\ dict_get "Class Name" d = None) /\
  (forall e, build_table d = Raise e -> e = ValueError \/ e = KeyError).
Proof.
  unfold build_table.
  destruct (pd_DataFrame_cases d) as [(n & Hal & ->)|(Hr & ->)]; simpl.
  - unfold set_index. simpl.
    destruct (dict_get "Class Name" d) as [col|].
    + split; [split; [done|]|split; [split; [done|]|done]].
      * intros Hr. by destruct (aligned_not_ragged d n).
      * by intros [_ ?].
    + split; [split; [done|]|split; [split; [eauto|done]|]].
      * intros Hr. by destruct (aligned_not_ragged d n).
      * intros e [= <-]. by right.
  - split; [done|]. split.
    + split; [done|]. intros [[n Hal] _]. by destruct (aligned_not_ragged d n).
    + intros e [= <-]. by left.
Qed.

Lemma build_table_errors_witness :
  build_table (drop 1 data) = Raise KeyError.
Proof.
  apply (proj1 (proj2 (build_table_errors (drop 1 data)))).
  split; [|reflexivity]. exists 4. repeat constructor.
Defined.

(** X4. Class names that repeat are not refused: the table is made with
    the repeated labels in its index, one row for each. *)
Theorem build_table_keeps_repeated_names (d : dict) (cats : list pyval) :
  dict_get "Class Name" d = Some cats ->
  aligned d (length cats) ->
  ~ NoDup cats ->
  exists table,
    build_table d = Ok table /\ index table = cats /\
    len table = length cats /\ ~ NoDup (index table).
Proof.
  intros Hcats Hal Hdup. eexists.
  split; [by apply build_table_aligned|]. by repeat split.
Qed.

Lemma build_table_keeps_repeated_names_witness :
  exists table,
    build_table data_repeated = Ok table /\
    index table = [PStr "Glioma"; PStr "Glioma"; PStr "Pituitary"] /\
    len table = 3.
Proof.
  destruct (build_table_keeps_repeated_names data_repeated
              [PStr "Glioma"; PStr "Glioma"; PStr "Pituitary"])
    as (table & Hb & Hi & Hl & _).
  - reflexivity.
  - repeat constructor.
  - intros Hnd. apply NoDup_cons in Hnd as [Hnotin _]. apply Hnotin. left.
  - exists table. split; [exact Hb|]. split; [exact Hi|exact Hl].
Defined.

(** X5. Line 15 cannot be run twice on the same frame: once the column has
    become the index, asking for it again raises KeyError. *)
Theorem set_index_twice_raises (key : string) (st st1 : store) :
  exec (SetIndexInplace key) st = Ok st1 ->
  exec (SetIndexInplace key) st1 = Raise KeyError.
Proof.
  simpl. intros H. inv_bind H. inv_bind H. injection H as <-. simpl.
  unfold set_index in *.
  destruct (dict_get key (columns a)) as [col|]; [|done].
  injection Ha0 as <-. simpl. by rewrite dict_get_filter_out.
Qed.

Lemma set_index_twice_raises_witness :
  exists st1,
    run (build_table_stmts data) empty_store = Ok st1 /\
    exec (SetIndexInplace "Class Name") st1 = Raise KeyError.
Proof.
  assert (exists st0, run (take 2 (script data)) empty_store = Ok st0)
    as [st0 H0] by (vm_compute; eauto).
  assert (exists st1, exec (SetIndexInplace "Class Name") st0 = Ok st1)
    as [st1 H1]
    by (vm_compute in H0; injection H0 as <-; vm_compute; eauto).
  exists st1. split.
  - vm_compute in H0. injection H0 as <-.
    vm_compute in H1. injection H1 as <-. reflexivity.
  - exact (set_index_twice_raises "Class Name" st0 st1 H1).
Defined.

Lemma set_index_keeps_values_witness :
  exists df df',
    pd_DataFrame data = Ok df /\
    set_index "Class Name" df = Ok df' /\
    get_label_or_level_values "Class Name" df' = Some categories /\
    get_label_or_level_values "Class Name" df = Some categories.
Proof.
  set (df := {| index := RangeIndex 4; index_name := None; columns := data |}).
  assert (exists df', set_index "Class Name" df = Ok df') as [df' Hset]
    by (vm_compute; eauto).
  exists df, df'. split; [reflexivity|]. split; [exact Hset|].
  split; [|reflexivity].
  rewrite (set_index_keeps_values "Class Name" "Class Name" df df' eq_refl Hset).
  reflexivity.
Defined.

(** ** The drawing loop, for any values *)








(** ** How many bars, and how high *)

Lemma stacked_by_sign_labels (tp : list nat) (series : list (string * list Z)) :
  forall (n : nat) (pos neg : list Z),
    bc_label <$> stacked_by_sign tp n pos neg series
    = imap (fun k => container_label (n + k)) (fst <$> series).
Proof.
  induction series as [|[label y] series IH]; intros n pos neg; [done|].
  cbn [stacked_by_sign]. rewrite !fmap_cons, imap_cons.
  cbn [bc_label fst]. rewrite Nat.add_0_r. f_equal.
  rewrite IH. apply imap_ext. intros k x _. simpl.
  by rewrite Nat.add_succ_r.
Qed.

(** X7. A plot of a rectangular frame has one container per column that
    holds only ints fitting int64, or only ints fitting uint64 (any other
    column is left out), in column order; the container carries the
    column's name, or [_containerN] for the [N]-th container when the
    column has the empty name; each container has exactly one segment per
    row, and there is one tick and one tick label per row. *)
Theorem plot_one_segment_per_cell (df : DataFrame) (ax : Axes) :
  rectangular df ->
  plot df = Ok ax ->
  (bc_label <$> containers ax)
    = imap container_label (fst <$> drawn_columns df) /\
  Forall (fun bc => length (bc_patches bc) = len df) (containers ax) /\
  xticks ax = seq 0 (len df) /\
  length (xticklabels ax) = len df.
Proof.
  intros Hrect Hplot.
  pose proof (plot_containers _ _ Hplot) as Hc.
  destruct (plot_Ok _ _ Hplot) as (_ & Ht & Hl).
  split; [|split; [|split; [done|]]].
  - rewrite Hc, stacked_by_sign_labels. unfold numeric_data, drawn_columns.
    by rewrite <- list_fmap_compose.
  - rewrite Hc. apply stacked_by_sign_lengths.
    + by rewrite length_seq.
    + by apply numeric_data_rectangular.
    + by rewrite length_np_zeros.
    + by rewrite length_np_zeros.
  - rewrite Hl. by rewrite length_fmap.
Qed.

Lemma plot_one_segment_per_cell_witness :
  exists df ax,
    pd_DataFrame data = Ok df /\ plot df = Ok ax /\
    (bc_label <$> containers ax) = ["Training"; "Testing"] /\
    Forall (fun bc => length (bc_patches bc) = 4) (containers ax).
Proof.
  assert (exists df, pd_DataFrame data = Ok df) as [df Hdf]
    by (vm_compute; eauto).
  assert (exists ax, plot df = Ok ax) as [ax Hplot]
    by (vm_compute in Hdf; injection Hdf as <-; vm_compute; eauto).
  assert (Hrect : rectangular df)
    by (vm_compute in Hdf; injection Hdf as <-; repeat constructor).
  destruct (plot_one_segment_per_cell df ax Hrect Hplot) as (Hl & Hn & _ & _).
  exists df, ax. split; [exact Hdf|]. split; [exact Hplot|].
  vm_compute in Hdf. injection Hdf as <-. split; [exact Hl|exact Hn].
Defined.






(** ** The legend and the texts *)

Lemma legend_entries_labels (cs : list BarContainer) :
  (fst <$> ((fun bc => (bc_label bc, bc)) <$>
              filter (fun bc => legend_label_ok (bc_label bc) = true) cs))
  = filter (fun s => legend_label_ok s = true) (bc_label <$> cs).
Proof.
  induction cs as [|bc cs IH]; [done|].
  rewrite fmap_cons.
  rewrite (filter_cons (fun bc => legend_label_ok (bc_label bc) = true)).
  rewrite (filter_cons (fun s => legend_label_ok s = true)).
  destruct (decide (legend_label_ok (bc_label bc) = true)); [|done].
  rewrite !fmap_cons. simpl. by rewrite IH.
Qed.

(** X11. The legend of a rendered table names the drawn series in drawing
    order, except those whose name is empty or starts with an underscore:
    such a series is drawn but gets no legend entry.  Every entry stands
    for a container of the axes and carries that container's label. *)
Theorem legend_lists_labelled_series (table : DataFrame)
    (title_ x_label y_label legend_title_ : string) (ax : Axes) :
  render table title_ x_label y_label legend_title_ = Ok ax ->
  exists l,
    legend_ ax = Some l /\
    (fst <$> legend_entries l)
      = filter (fun s => legend_label_ok s = true)
               (fst <$> numeric_data table) /\
    Forall (fun e => e.1 = bc_label e.2 /\ e.2 ∈ containers ax)
           (legend_entries l).
Proof.
  intros H.
  destruct (render_texts _ _ _ _ _ _ H) as (_ & _ & _ & Hlab & Hleg).
  eexists. split; [exact Hleg|]. simpl. split.
  - by rewrite legend_entries_labels, Hlab.
  - rewrite Forall_fmap. apply Forall_forall.
    intros bc [_ Hin]%list_elem_of_filter. by split.
Qed.

Lemma legend_lists_labelled_series_witness :
  exists table ax l,
    build_table data_underscore = Ok table /\
    render table "t" "x" "y" "Subset" = Ok ax /\
    (bc_label <$> containers ax) = ["Training"; "_Held out"; "Testing"] /\
    legend_ ax = Some l /\
    (fst <$> legend_entries l) = ["Training"; "Testing"].
Proof.
  assert (exists table, build_table data_underscore = Ok table) as [table Hb]
    by (vm_compute; eauto).
  assert (exists ax, render table "t" "x" "y" "Subset" = Ok ax) as [ax Hr]
    by (vm_compute in Hb; injection Hb as <-; vm_compute; eauto).
  destruct (legend_lists_labelled_series table "t" "x" "y" "Subset" ax Hr)
    as (l & Hl & He & _).
  exists table, ax, l. split; [exact Hb|]. split; [exact Hr|].
  vm_compute in Hb. injection Hb as <-.
  split; [|split; [exact Hl|]].
  - vm_compute in Hr. injection Hr as <-. reflexivity.
  - rewrite He. reflexivity.
Defined.

Lemma plot_texts (df : DataFrame) (ax : Axes) :
  plot df = Ok ax ->
  title ax = "" /\ ylabel ax = "" /\ xlabel ax = default "" (index_name df).
Proof.
  unfold plot. repeat case_decide; try done. intros [= <-].
  destruct (foldl_make_plot_texts (seq 0 (len df)) (numeric_data df)
              {| pos_prior := np_zeros (length (seq 0 (len df)));
                 neg_prior := np_zeros (length (seq 0 (len df)));
                 drawn := subplots |}) as (Ht & Hx & Hy).
  unfold make_plot. by destruct (index_name df); simpl.
Qed.

(** Lines 5-18 make the table and plot it on a new figure. *)
Lemma run_plot_stmts (d : dict) :
  run (take 4 (script d)) empty_store =
    table ← build_table d;
    ax ← plot table;
    mret {| v_data := Some d; v_df := Some table; v_ax := Some ax;
            gcf := Some {| figsize := Some (8, 6)%Z; tight := false;
                           shown := false |} |}.
Proof.
  unfold script, build_table. simpl.
  destruct (pd_DataFrame d) as [df|e]; simpl; [|done].
  destruct (set_index "Class Name" df) as [table|e]; simpl; [|done].
  by destruct (plot table) as [ax|e].
Qed.

(** X12. After line 18 and before the labelling of lines 21-23, whatever
    the dict, the chart has no title and no y label, its x axis is named
    after the index, 'Class Name', and nothing is displayed yet. *)
Theorem chart_before_labelling (d : dict) (st : store) :
  run (take 4 (script d)) empty_store = Ok st ->
  exists ax,
    v_ax st = Some ax /\
    title ax = "" /\ xlabel ax = "Class Name" /\ ylabel ax = "" /\
    displayed st = None.
Proof.
  rewrite run_plot_stmts. intros H.
  inv_bind H. inv_bind H. injection H as <-.
  destruct (plot_texts _ _ Ha0) as (Ht & Hy & Hx).
  destruct (build_table_Ok_inv d a Ha) as (n & cats & _ & _ & _ & ->).
  exists a0. by repeat split.
Qed.

Lemma chart_before_labelling_witness :
  exists st ax,
    run (take 4 visualize) empty_store = Ok st /\
    v_ax st = Some ax /\ xlabel ax = "Class Name" /\ title ax = "".
Proof.
  assert (exists st, run (take 4 (script data)) empty_store = Ok st)
    as [st Hrun] by (vm_compute; eauto).
  destruct (chart_before_labelling data st Hrun) as (ax & Hax & Ht & Hx & _).
  exists st, ax. split; [exact Hrun|]. split; [exact Hax|].
  split; [exact Hx|exact Ht].
Defined.

(** ** When the script gets to show a chart *)

Lemma plot_Ok_iff (df : DataFrame) :
  (exists ax, plot df = Ok ax) <-> numeric_data df <> [] /\ len df <> 0.
Proof.
  unfold plot. repeat case_decide; split; try done;
    try (by intros [? ?]); eauto.
Qed.

Lemma numeric_data_nonempty (df : DataFrame) :
  numeric_data df <> [] <->
  exists name col, (name, col) ∈ columns df /\ is_numeric col = true.
Proof.
  unfold numeric_data. split.
  - intros Hne.
    destruct (filter (fun kv : string * list pyval => is_numeric kv.2 = true)
                     (columns df)) as [|[name col] l] eqn:Hf; [done|].
    assert (Hin : (name, col) ∈ filter
              (fun kv : string * list pyval => is_numeric kv.2 = true)
              (columns df)) by (rewrite Hf; left).
    apply list_elem_of_filter in Hin as [Hnum Hin]. by exists name, col.
  - intros (name & col & Hin & Hnum) Hnil.
    apply fmap_nil_inv in Hnil.
    assert (Hin' : (name, col) ∈ filter
              (fun kv : string * list pyval => is_numeric kv.2 = true)
              (columns df)) by by apply list_elem_of_filter.
    rewrite Hnil in Hin'. by apply not_elem_of_nil in Hin'.
Qed.

(** X10. The script can run through only on a dict that has lists of one
    common length of at least 1, a list stored under 'Class Name', and
    beside it at least one list that is drawn (only ints, all fitting
    int64 or all fitting uint64).  On a dict that meets the first three
    conditions and has no such list, line 18 raises TypeError. *)
Theorem script_success_requires (d : dict) :
  (forall st, run (script d) empty_store = Ok st ->
     exists n cats name col,
       0 < n /\ aligned d n /\ dict_get "Class Name" d = Some cats /\
       (name, col) ∈ d /\ name <> "Class Name" /\ is_numeric col = true) /\
  (forall n cats,
     0 < n -> aligned d n -> dict_get "Class Name" d = Some cats ->
     (forall name col,
        (name, col) ∈ d -> name <> "Class Name" -> is_numeric col = false) ->
     run (script d) empty_store = Raise TypeError).
Proof.
  rewrite run_script. split.
  - intros st H. inv_bind H. inv_bind H. clear H.
    unfold render in Ha0. inv_bind Ha0. clear Ha0.
    destruct (proj1 (plot_Ok_iff a) (ex_intro _ _ Ha1)) as [Hnum Hlen].
    destruct (build_table_Ok_inv d a Ha) as (n & cats & Hal & Hcats & Hn & ->).
    apply numeric_data_nonempty in Hnum as (name & col & Hin & Hnum).
    simpl in Hin. apply list_elem_of_filter in Hin as [Hname Hin].
    unfold len in Hlen. simpl in Hlen, Hname.
    exists n, cats, name, col. repeat split; try done. lia.
  - intros n cats Hn Hal Hcats Hnone.
    assert (Hlen : length cats = n).
    { unfold aligned in Hal. rewrite Forall_forall in Hal.
      apply (Hal _ (dict_get_elem_of _ _ _ Hcats)). }
    rewrite (build_table_aligned d cats Hcats) by by rewrite Hlen.
    simpl. unfold render, plot.
    rewrite decide_True; [done|].
    destruct (numeric_data
                {| index := cats; index_name := Some "Class Name";
                   columns := filter (fun kv => kv.1 <> "Class Name") d |})
      eqn:Hnd; [done|].
    assert (Hne : numeric_data
                {| index := cats; index_name := Some "Class Name";
                   columns := filter (fun kv => kv.1 <> "Class Name") d |}
                  <> []) by by rewrite Hnd.
    apply numeric_data_nonempty in Hne as (name & col & Hin & Hnum).
    simpl in Hin. apply list_elem_of_filter in Hin as [Hname Hin].
    rewrite (Hnone name col Hin Hname) in Hnum. done.
Qed.

Lemma script_success_requires_witness :
  run (script [("Class Name", [PStr "Glioma"; PStr "Pituitary"]);
               ("Grade",      [PStr "II";     PStr "n/a"]);
               ("Volume",     [PInt (2 ^ 64); PInt 3])])
      empty_store
  = Raise TypeError.
Proof.
  apply (proj2 (script_success_requires _) 2 [PStr "Glioma"; PStr "Pituitary"]).
  - lia.
  - repeat constructor.
  - reflexivity.
  - intros name col Hin Hname.
    apply elem_of_cons in Hin as [[= -> ->]|Hin]; [done|].
    apply elem_of_cons in Hin as [[= -> ->]|Hin]; [reflexivity|].
    apply elem_of_cons in Hin as [[= -> ->]|Hin]; [reflexivity|].
    by apply not_elem_of_nil in Hin.
Defined.

(** X13. Whenever the script runs through, the dict it started from is
    still in [data], [df] is the table made from it, and the figure is the
    8 by 6 inch one of line 18, laid out tightly and shown with the axes
    the script labelled. *)
Theorem script_final_store (d : dict) (st : store) :
  run (script d) empty_store = Ok st ->
  v_data st = Some d /\
  (exists table, build_table d = Ok table /\ v_df st = Some table) /\
  gcf st = Some {| figsize := Some (8, 6)%Z; tight := true; shown := true |} /\
  (exists ax, v_ax st = Some ax /\ displayed st = Some ax).
Proof.
  rewrite run_script. intros H. inv_bind H. inv_bind H. injection H as <-.
  simpl. repeat split; eauto.
Qed.

Lemma script_final_store_witness :
  exists st,
    run visualize empty_store = Ok st /\
    v_data st = Some data /\
    gcf st = Some {| figsize := Some (8, 6)%Z; tight := true; shown := true |}.
Proof.
  assert (exists st, run (script data) empty_store = Ok st) as [st Hrun]
    by (vm_compute; eauto).
  destruct (script_final_store data st Hrun) as (Hd & _ & Hfig & _).
  exists st. split; [exact Hrun|]. split; [exact Hd|exact Hfig].
Defined.

(** ** Segments are cells *)


